(** * A shallow embedding of [current_city_weather.py]

    The module fetches an OpenWeatherMap XML report for a city, stores the
    parsed attributes in the process-wide dictionary [city_weather_dict]
    and prints a formatted report.  Python values, exceptions, the XML DOM
    returned by [xml.dom.minidom] and the outside world (network, scratch
    file, XML parser) are modelled explicitly below. *)

From stdpp Require Import base gmap strings list.
From Stdlib Require Import String Ascii DecimalString.

Local Open Scope string_scope.
#[local] Set Warnings "-register-all".

(* ------------------------------------------------------------------ *)
(** ** Python values and exceptions *)

(** The dynamically typed arguments the class receives. *)
Inductive pyval :=
  | VStr (s : string)
  | VInt (z : Z)
  | VBool (b : bool)
  | VNone.

(** Python truthiness ([if val:]). *)
Definition truthy (v : pyval) : bool :=
  match v with
  | VStr s => negb (String.eqb s "")
  | VInt z => negb (Z.eqb z 0)
  | VBool b => b
  | VNone => false
  end.

(** [type(val) is str]. *)
Definition is_str (v : pyval) : bool :=
  match v with VStr _ => true | _ => false end.

(** The exceptions that can reach the module's code paths. *)
Inductive exc :=
  | WeatherException
  | KeyError
  | TypeError
  | IndexError
  | URLError          (** [urllib.error.URLError] / [HTTPError] *)
  | OSError           (** file open / write failures *)
  | ExpatError        (** malformed XML, raised by [minidom.parse] *)
  | RecursionError
  | UnboundLocalError
  | ValueError
  | SystemExit.       (** [argparse] rejecting the command line *)

Definition exc_eqb (a b : exc) : bool :=
  match a, b with
  | WeatherException, WeatherException | KeyError, KeyError
  | TypeError, TypeError | IndexError, IndexError | URLError, URLError
  | OSError, OSError | ExpatError, ExpatError
  | RecursionError, RecursionError
  | UnboundLocalError, UnboundLocalError | ValueError, ValueError
  | SystemExit, SystemExit => true
  | _, _ => false
  end.

(** Outcome of a Python computation: a value or a raised exception. *)
Inductive res (A : Type) :=
  | Ok (a : A)
  | Exc (e : exc).
Arguments Ok {A} a.
Arguments Exc {A} e.

Definition is_exc {A} (r : res A) (e : exc) : bool :=
  match r with Exc e' => exc_eqb e' e | Ok _ => false end.

(* ------------------------------------------------------------------ *)
(** ** Module-level constants *)

Definition SERVER_NAME := "http://api.openweathermap.org".
Definition DATA_PATH := "/data/2.5/weather?q=".
Definition CITY_FILE_NAME := "weather.xml".

(** [unit_conversion_dict], in its insertion (= iteration) order. *)
Definition unit_conversion_dict : list (string * string) :=
  [("fahrenheit", "imperial"); ("celsius", "metric"); ("kelvin", "")].

(** [d[k]] on a dictionary with string keys: a key of another type, or a
    missing key, raises [KeyError]. *)
Definition dict_get (d : list (string * string)) (k : pyval) : res string :=
  match k with
  | VStr s =>
      match find (fun kv => String.eqb kv.1 s) d with
      | Some kv => Ok kv.2
      | None => Exc KeyError
      end
  | _ => Exc KeyError
  end.

(** [lst[0]]. *)
Definition first {A} (l : list A) : res A :=
  match l with x :: _ => Ok x | [] => Exc IndexError end.

(* ------------------------------------------------------------------ *)
(** ** The [CityWeather] object and its validating setters *)

Record CityWeather := mkCityWeather {
  cw_city_name : pyval;   (** [self.__city_name] *)
  cw_units : pyval;       (** [self.__units] *)
  cw_api_key : pyval;     (** [self.__api_key] *)
  cw_mode : string        (** [self.mode] *)
}.

(** [CityWeather.__init__]: stores its arguments as they are. *)
Definition CityWeather_init (city_name units api_key : pyval) : CityWeather :=
  {| cw_city_name := city_name; cw_units := units;
     cw_api_key := api_key; cw_mode := "xml" |}.

(** Default arguments [city_name="paris", units="celsius", api_key=None]. *)
Definition CityWeather_default : CityWeather :=
  CityWeather_init (VStr "paris") (VStr "celsius") VNone.

Definition set_city_name_field (self : CityWeather) (v : pyval) :=
  {| cw_city_name := v; cw_units := cw_units self;
     cw_api_key := cw_api_key self; cw_mode := cw_mode self |}.
Definition set_units_field (self : CityWeather) (v : pyval) :=
  {| cw_city_name := cw_city_name self; cw_units := v;
     cw_api_key := cw_api_key self; cw_mode := cw_mode self |}.
Definition set_api_key_field (self : CityWeather) (v : pyval) :=
  {| cw_city_name := cw_city_name self; cw_units := cw_units self;
     cw_api_key := v; cw_mode := cw_mode self |}.

(** [@city_name.setter]. *)
Definition city_name_setter (self : CityWeather) (val : pyval)
  : res CityWeather :=
  if negb (is_str val) then Exc WeatherException
  else Ok (set_city_name_field self val).

(** [val != k] for a string [k]: values of another type are never equal. *)
Definition py_ne_str (v : pyval) (k : string) : bool :=
  match v with VStr s => negb (String.eqb s k) | _ => true end.

(** [@units.setter]: [for k in unit_conversion_dict: if val != k: raise],
    then [self.__units = val]. *)
Definition units_setter (self : CityWeather) (val : pyval) : res CityWeather :=
  let fix loop (ks : list (string * string)) : res CityWeather :=
    match ks with
    | [] => Ok (set_units_field self val)
    | (k, _) :: ks' =>
        if py_ne_str val k then Exc WeatherException else loop ks'
    end in
  loop unit_conversion_dict.

(** [@api_key.setter]: on a truthy value the body assigns [self.api_key],
    which goes through the property again, i.e. calls this setter
    recursively.  [depth] is the interpreter's remaining stack budget
    ([sys.getrecursionlimit()] minus the current depth); a call made with
    no budget left raises [RecursionError]. *)
Fixpoint api_key_setter (depth : nat) (self : CityWeather) (val : pyval)
  : res CityWeather :=
  match depth with
  | O => Exc RecursionError
  | S depth' =>
      if truthy val then api_key_setter depth' self val
      else Exc WeatherException
  end.

(** [str(v)], as used by ["%s" % v]. *)
Definition py_str (v : pyval) : string :=
  match v with
  | VStr s => s
  | VInt z => NilZero.string_of_int (Z.to_int z)
  | VBool true => "True"
  | VBool false => "False"
  | VNone => "None"
  end.

(** [s + v] for a string [s]: adding a non-string raises [TypeError]. *)
Definition str_plus (s : string) (v : pyval) : res string :=
  match v with VStr t => Ok (s ++ t) | _ => Exc TypeError end.

(* ------------------------------------------------------------------ *)
(** ** Dictionary keys

    [city_weather_dict] is keyed by [self.city_name], which may be any
    hashable value.  Python identifies [True] with [1] and [False] with [0]
    as keys; [py_key] normalises keys the same way. *)

Global Instance pyval_eq_dec : EqDecision pyval.
Proof. solve_decision. Defined.

Definition pyval_enc (v : pyval) : (string + Z) + (bool + unit) :=
  match v with
  | VStr s => inl (inl s) | VInt z => inl (inr z)
  | VBool b => inr (inl b) | VNone => inr (inr tt)
  end.
Definition pyval_dec (x : (string + Z) + (bool + unit)) : pyval :=
  match x with
  | inl (inl s) => VStr s | inl (inr z) => VInt z
  | inr (inl b) => VBool b | inr (inr _) => VNone
  end.

Global Instance pyval_countable : Countable pyval.
Proof. refine (inj_countable' pyval_enc pyval_dec _). by intros []. Defined.

Definition py_key (v : pyval) : pyval :=
  match v with
  | VBool true => VInt 1
  | VBool false => VInt 0
  | _ => v
  end.

(* ------------------------------------------------------------------ *)
(** ** The DOM returned by [xml.dom.minidom] *)

Inductive xnode :=
  | XElem (tag : string) (attrs : list (string * string)) (children : list xnode).

Definition tag_of (n : xnode) : string := match n with XElem t _ _ => t end.

(** [Element.getElementsByTagName(name)]: the matching proper descendants,
    in document order (minidom's [_get_elements_by_tagName_helper]). *)
Fixpoint getElementsByTagName (name : string) (n : xnode) : list xnode :=
  match n with
  | XElem _ _ ch =>
      (fix go (cs : list xnode) : list xnode :=
         match cs with
         | [] => []
         | c :: cs' =>
             ((if String.eqb (tag_of c) name then [c] else [])
                ++ getElementsByTagName name c ++ go cs')%list
         end) ch
  end.

(** [Document.getElementsByTagName(name)] on a document whose element is
    [root]: the root itself is among the candidates. *)
Definition doc_getElementsByTagName (name : string) (root : xnode)
  : list xnode :=
  ((if String.eqb (tag_of root) name then [root] else [])
     ++ getElementsByTagName name root)%list.

(** [Element.getAttribute(name)]: [""] when the attribute is absent. *)
Definition getAttribute (n : xnode) (name : string) : string :=
  match n with
  | XElem _ attrs _ =>
      match find (fun kv => String.eqb kv.1 name) attrs with
      | Some kv => kv.2
      | None => ""
      end
  end.

(* ------------------------------------------------------------------ *)
(** ** Program state and the outside world *)

(** The value stored under a city in [city_weather_dict]: five nested
    dictionaries with fixed keys, flattened into one record. *)
Record report := mkReport {
  temperature_val : string; temp_unit : string;
  humidity_val : string; humidity_unit : string;
  wind_val : string; wind_desc : string;
  pressure_val : string; pressure_unit : string;
  clouds_val : string; clouds_desc : string
}.

Record St := mkSt {
  city_weather_dict : gmap pyval report;
  stdout : list string;          (** what [print] wrote, one entry per call *)
  scratch : option string;       (** contents of [CITY_FILE_NAME], if any *)
  http_log : list string         (** URLs passed to [urlopen], latest first *)
}.

(** The environment the module talks to: the library functions it calls.
    [w_write data] is the failure of
    [with open(CITY_FILE_NAME, mode='wb') as file: file.write(data)], if
    any: [Some (e, None)] when [open] raises [e] and the file is left as it
    was, [Some (e, Some p)] when the file was opened, hence truncated, and
    the write or the close raised [e], leaving [p] in it. *)
Record World := mkWorld {
  w_urlopen : string -> res string;                (** [urlopen(url).read()] *)
  w_write : string -> option (exc * option string);
  w_parse : string -> res xnode;      (** [minidom.parse] of the file text *)
  w_lower : string -> string;         (** [str.lower] *)
  w_str : exc -> string               (** [str(e)] of a raised exception *)
}.

(** A state and exception monad: Python statements run against [St] and
    may raise. *)
Definition M (A : Type) := St -> res A * St.

Definition ret {A} (a : A) : M A := fun s => (Ok a, s).
Definition raise {A} (e : exc) : M A := fun s => (Exc e, s).
Definition bind {A B} (m : M A) (k : A -> M B) : M B :=
  fun s => match m s with
           | (Ok a, s') => k a s'
           | (Exc e, s') => (Exc e, s')
           end.
Definition lift {A} (r : res A) : M A :=
  match r with Ok a => ret a | Exc e => raise e end.

Notation "'let*' x := m 'in' k" := (bind m (fun x => k))
  (at level 200, x name, m at level 100, k at level 200, right associativity).

(** [try: m except C as e: h(e)], [catches] deciding membership in [C]. *)
Definition try_except {A} (m : M A) (catches : exc -> bool) (h : exc -> M A)
  : M A :=
  fun s => match m s with
           | (Exc e, s') => if catches e then h e s' else (Exc e, s')
           | r => r
           end.

Definition is_WeatherException (e : exc) : bool := exc_eqb e WeatherException.

Definition print (msg : string) : M unit :=
  fun s => (Ok tt, {| city_weather_dict := city_weather_dict s;
                      stdout := (stdout s ++ [msg])%list;
                      scratch := scratch s; http_log := http_log s |}).

Definition set_scratch (data : string) : M unit :=
  fun s => (Ok tt, {| city_weather_dict := city_weather_dict s;
                      stdout := stdout s; scratch := Some data;
                      http_log := http_log s |}).

Definition log_request (url : string) : M unit :=
  fun s => (Ok tt, {| city_weather_dict := city_weather_dict s;
                      stdout := stdout s; scratch := scratch s;
                      http_log := url :: http_log s |}).

(** [city_weather_dict[k] = v]. *)
Definition dict_store (k : pyval) (v : report) : M unit :=
  fun s => (Ok tt, {| city_weather_dict := <[py_key k := v]> (city_weather_dict s);
                      stdout := stdout s; scratch := scratch s;
                      http_log := http_log s |}).

(** [city_weather_dict[k]]. *)
Definition dict_load (k : pyval) : M report :=
  fun s => match city_weather_dict s !! py_key k with
           | Some r => (Ok r, s)
           | None => (Exc KeyError, s)
           end.

(** The class name of an exception: the [str(e)] of the concrete worlds
    below. *)
Definition exc_name (e : exc) : string :=
  match e with
  | WeatherException => "WeatherException" | KeyError => "KeyError"
  | TypeError => "TypeError" | IndexError => "IndexError"
  | URLError => "URLError" | OSError => "OSError"
  | ExpatError => "ExpatError" | RecursionError => "RecursionError"
  | UnboundLocalError => "UnboundLocalError" | ValueError => "ValueError"
  | SystemExit => "SystemExit"
  end.

(* ------------------------------------------------------------------ *)
(** ** [create_city_weather_data_file] and [update_city_weather_dict] *)

(** [with open(CITY_FILE_NAME, mode='wb') as file: file.write(data)].
    A failing [open] raises with the file untouched; once opened, the file
    is truncated, and a failing write or close leaves what it wrote. *)
Definition write_city_file (w : World) (data : string) : M unit :=
  match w_write w data with
  | None => set_scratch data
  | Some (e, None) => raise e
  | Some (e, Some partial) => let* _ := set_scratch partial in raise e
  end.

(** [xml.dom.minidom.parse(CITY_FILE_NAME)]: a missing file raises
    [OSError] ([FileNotFoundError]); malformed text raises [ExpatError]. *)
Definition parse_city_file (w : World) : M xnode :=
  fun s => match scratch s with
           | None => (Exc OSError, s)
           | Some data => lift (w_parse w data) s
           end.

Definition create_city_weather_data_file (w : World) (self : CityWeather)
  : M unit :=
  let* api_units := lift (dict_get unit_conversion_dict (cw_units self)) in
  (* SERVER_NAME + DATA_PATH + self.city_name + "&appid=" + self.api_key
     + "&mode=" + self.mode + "&units=" + api_units, left to right *)
  let* u1 := lift (str_plus (SERVER_NAME ++ DATA_PATH) (cw_city_name self)) in
  let* u2 := lift (str_plus (u1 ++ "&appid=") (cw_api_key self)) in
  let url := u2 ++ "&mode=" ++ cw_mode self ++ "&units=" ++ api_units in
  let* _ := log_request url in
  let* xml_data := lift (w_urlopen w url) in
  try_except (write_city_file w xml_data) is_WeatherException
    (fun e => print ("File operations failed with error: " ++ w_str w e)).

Definition update_city_weather_dict (w : World) (self : CityWeather) : M unit :=
  let* _ := create_city_weather_data_file w self in
  (* try: document = ... except WeatherException: print(...) *)
  let* document :=
    try_except (let* d := parse_city_file w in ret (Some d))
      is_WeatherException
      (fun e => let* _ := print ("Parsing data file " ++ CITY_FILE_NAME
                                 ++ " failed with error: " ++ w_str w e) in
                ret None) in
  let* document := match document with
                   | Some d => ret d
                   | None => raise UnboundLocalError
                   end in
  let* node_current := lift (first (doc_getElementsByTagName "current" document)) in
  let node_temp := getElementsByTagName "temperature" node_current in
  let node_wind := getElementsByTagName "wind" node_current in
  let node_humidity := getElementsByTagName "humidity" node_current in
  let node_pressure := getElementsByTagName "pressure" node_current in
  let node_clouds := getElementsByTagName "clouds" node_current in
  let* t0 := lift (first node_temp) in
  let temperature_val := getAttribute t0 "value" in
  let* t0 := lift (first node_temp) in
  let api_temp_unit := getAttribute t0 "unit" in
  let* temp_unit :=
    if String.eqb api_temp_unit "metric" then
      (* [k for k, v in unit_conversion_dict.items() if v == api_temp_unit][0] *)
      lift (first (map fst (List.filter (fun kv => String.eqb kv.2 api_temp_unit)
                                   unit_conversion_dict)))
    else ret api_temp_unit in
  let* h0 := lift (first node_humidity) in
  let humidity_val := getAttribute h0 "value" in
  let* h0 := lift (first node_humidity) in
  let humidity_unit := getAttribute h0 "unit" in
  let* w0 := lift (first node_wind) in
  let* sp := lift (first (getElementsByTagName "speed" w0)) in
  let wind_val := getAttribute sp "value" in
  let* w0 := lift (first node_wind) in
  let* sp := lift (first (getElementsByTagName "speed" w0)) in
  let wind_desc := getAttribute sp "name" in
  let* c0 := lift (first node_clouds) in
  let clouds_val := getAttribute c0 "value" in
  let* c0 := lift (first node_clouds) in
  let clouds_desc := getAttribute c0 "name" in
  let* p0 := lift (first node_pressure) in
  let pressure_val := getAttribute p0 "value" in
  let* p0 := lift (first node_pressure) in
  let pressure_unit := getAttribute p0 "unit" in
  dict_store (cw_city_name self)
    {| temperature_val := temperature_val; temp_unit := temp_unit;
       humidity_val := humidity_val; humidity_unit := humidity_unit;
       wind_val := wind_val; wind_desc := wind_desc;
       pressure_val := pressure_val; pressure_unit := pressure_unit;
       clouds_val := clouds_val; clouds_desc := clouds_desc |}.

(* ------------------------------------------------------------------ *)
(** ** [print_city_weather_report] *)

(** Lower-casing of ASCII letters, which is what [str.lower()] does on
    ASCII text: the [str.lower] of the concrete worlds below, whose texts
    are all ASCII. *)
Definition ascii_lower (c : ascii) : ascii :=
  let n := nat_of_ascii c in
  if (65 <=? n)%nat && (n <=? 90)%nat then ascii_of_nat (n + 32) else c.

Fixpoint ascii_lower_string (s : string) : string :=
  match s with
  | EmptyString => EmptyString
  | String c s' => String (ascii_lower c) (ascii_lower_string s')
  end.

Definition res_map {A B} (f : A -> B) (r : res A) : res B :=
  match r with Ok a => Ok (f a) | Exc e => Exc e end.

(** [fmt % args] with only [%s] and [%%] directives: the format is scanned
    once and the arguments are inserted as they are. *)
Fixpoint py_format (fmt : string) (args : list string) : res string :=
  match fmt with
  | EmptyString =>
      match args with
      | [] => Ok ""
      | _ => Exc TypeError     (** not all arguments converted *)
      end
  | String "%" (String "s" rest) =>
      match args with
      | a :: args' => res_map (fun t => a ++ t) (py_format rest args')
      | [] => Exc TypeError    (** not enough arguments for format string *)
      end
  | String "%" (String "%" rest) =>
      res_map (String "%") (py_format rest args)
  | String "%" _ => Exc ValueError
  | String c rest => res_map (String c) (py_format rest args)
  end.

Definition nl : string := String "010" EmptyString.

(** The format literal of [print_city_weather_report]. *)
Definition report_format : string :=
  "Weather report for %s:" ++ nl ++
  "Temperature is at %s %s" ++ nl ++
  "Humidity is %s%s" ++ nl ++
  "Wind is at %s speed meaning %s" ++ nl ++
  "Air pressure is %s %s" ++ nl ++
  "Clouds coverage is %s%% meaning %s" ++ nl.

(** The argument tuple is built first: every [city_weather_dict[city_name]]
    in it is the same lookup, which raises [KeyError] when absent. *)
Definition print_city_weather_report (w : World) (self : CityWeather)
  : M unit :=
  let city_name := cw_city_name self in
  let* r := dict_load city_name in
  let* text := lift (py_format report_format
                 [py_str city_name;
                  temperature_val r; temp_unit r;
                  humidity_val r; humidity_unit r;
                  wind_val r; w_lower w (wind_desc r);
                  pressure_val r; pressure_unit r;
                  clouds_val r; w_lower w (clouds_desc r)]) in
  print text.

(* ------------------------------------------------------------------ *)
(** ** Entry points *)

Definition run (w : World) (city_name units api_key : pyval) : M unit :=
  let weather_obj := CityWeather_init city_name units api_key in
  let* _ := update_city_weather_dict w weather_obj in
  print_city_weather_report w weather_obj.

(** [parser.parse_args()] is [argparse] reading the command line, a
    library not modelled here: [args] is its outcome, [None] when it
    exits with [SystemExit] (usage error, [-h]), otherwise the strings
    [city_name], [temp_units] and [api_key]. *)
Definition main (w : World) (args : option (string * string * string)) : M unit :=
  match args with
  | None => raise SystemExit
  | Some (city_name, temp_units, api_key) =>
      let ob := CityWeather_init (VStr city_name) (VStr temp_units)
                                 (VStr api_key) in
      let* _ := update_city_weather_dict w ob in
      print_city_weather_report w ob
  end.


(* ------------------------------------------------------------------ *)
(** ** Notions used by the properties *)

(** The elements [update_city_weather_dict] indexes with [[0]]: a
    [current] element, under the first one a [temperature], [wind],
    [humidity], [pressure] and [clouds] element, and a [speed] element
    under the first [wind]. *)
Definition has_some {A} (l : list A) : bool :=
  match l with [] => false | _ => true end.

Definition elements_present (doc : xnode) : bool :=
  match doc_getElementsByTagName "current" doc with
  | [] => false
  | cur :: _ =>
      forallb (fun t => has_some (getElementsByTagName t cur))
        ["temperature"; "wind"; "humidity"; "pressure"; "clouds"] &&
      match getElementsByTagName "wind" cur with
      | [] => false
      | w0 :: _ => has_some (getElementsByTagName "speed" w0)
      end
  end.

(** [WeatherException] is this module's own class: [urllib], file I/O and
    [minidom] never raise it. *)
Definition foreign_world (w : World) : Prop :=
  (forall url, w_urlopen w url <> Exc WeatherException) /\
  (forall data left, w_write w data <> Some (WeatherException, left)) /\
  (forall data, w_parse w data <> Exc WeatherException).

(** Concrete inputs: the object built by the docstring's example command
    line, a world without network, and a fresh interpreter state. *)
Definition tel_aviv_obj : CityWeather :=
  CityWeather_init (VStr "tel aviv") (VStr "celsius") (VStr "KEY").

Definition offline_world : World :=
  mkWorld (fun _ => Exc URLError) (fun _ => None) (fun _ => Exc ExpatError)
          ascii_lower_string exc_name.

Definition empty_st : St := mkSt ∅ [] None [].

(** The sample response of the specification. *)
Definition sample_doc : xnode :=
  XElem "current" [] [
    XElem "temperature" [("value", "15"); ("unit", "metric")] [];
    XElem "humidity" [("value", "60"); ("unit", "%")] [];
    XElem "wind" [] [XElem "speed" [("value", "3"); ("name", "Light breeze")] []];
    XElem "pressure" [("value", "1012"); ("unit", "hPa")] [];
    XElem "clouds" [("value", "40"); ("name", "scattered clouds")] []].

Definition sample_world : World :=
  mkWorld (fun _ => Ok "<current>...</current>") (fun _ => None)
          (fun _ => Ok sample_doc) ascii_lower_string exc_name.

(** The sample response with its [wind] element removed. *)
Definition no_wind_doc : xnode :=
  XElem "current" [] [
    XElem "temperature" [("value", "15"); ("unit", "metric")] [];
    XElem "humidity" [("value", "60"); ("unit", "%")] [];
    XElem "pressure" [("value", "1012"); ("unit", "hPa")] [];
    XElem "clouds" [("value", "40"); ("name", "scattered clouds")] []].

Definition no_wind_world : World :=
  mkWorld (fun _ => Ok "<current>...</current>") (fun _ => None)
          (fun _ => Ok no_wind_doc) ascii_lower_string exc_name.

(** A later response for the same city. *)
Definition later_doc : xnode :=
  XElem "current" [] [
    XElem "temperature" [("value", "17"); ("unit", "metric")] [];
    XElem "humidity" [("value", "55"); ("unit", "%")] [];
    XElem "wind" [] [XElem "speed" [("value", "5"); ("name", "Gentle Breeze")] []];
    XElem "pressure" [("value", "1010"); ("unit", "hPa")] [];
    XElem "clouds" [("value", "75"); ("name", "broken clouds")] []].

Definition later_world : World :=
  mkWorld (fun _ => Ok "<current>...</current>") (fun _ => None)
          (fun _ => Ok later_doc) ascii_lower_string exc_name.

(** A world whose scratch-file write fails once the file is opened (and so
    emptied), and one whose response is not well-formed XML. *)
Definition disk_full_world : World :=
  mkWorld (fun _ => Ok "<current>...</current>") (fun _ => Some (OSError, Some ""))
          (fun _ => Ok sample_doc) ascii_lower_string exc_name.

Definition bad_xml_world : World :=
  mkWorld (fun _ => Ok "<current") (fun _ => None) (fun _ => Exc ExpatError)
          ascii_lower_string exc_name.

Definition sample_report : report :=
  {| temperature_val := "15"; temp_unit := "celsius";
     humidity_val := "60"; humidity_unit := "%";
     wind_val := "3"; wind_desc := "Light breeze";
     pressure_val := "1012"; pressure_unit := "hPa";
     clouds_val := "40"; clouds_desc := "scattered clouds" |}.

(* ================================================================== *)
(** * Properties *)

(** ** General facts *)

Lemma string_app_assoc (a b c : string) : (a ++ b) ++ c = a ++ (b ++ c).
Proof. induction a as [|x a IH]; [reflexivity | exact (f_equal (String x) IH)]. Qed.

Lemma py_key_str (s : string) : py_key (VStr s) = VStr s.
Proof. reflexivity. Qed.

(** ** The validating setters *)

(** Claim C1 (the units setter).  The loop raises as soon as [val] differs
    from one key of [unit_conversion_dict]; the three keys are distinct, so
    every value, the three accepted units included, is rejected with
    [WeatherException] and [self.__units] is never assigned. *)
Theorem units_setter_rejects_every_value (self : CityWeather) (val : pyval) :
  units_setter self val = Exc WeatherException.
Proof.
  destruct val as [s| | |]; try reflexivity.
  unfold units_setter; cbn.
  destruct (String.eqb s "fahrenheit") eqn:E; [|reflexivity].
  apply String.eqb_eq in E; subst s; reflexivity.
Qed.

Lemma unit_tokens :
  dict_get unit_conversion_dict (VStr "kelvin") = Ok "" /\
  dict_get unit_conversion_dict (VStr "celsius") = Ok "metric" /\
  dict_get unit_conversion_dict (VStr "fahrenheit") = Ok "imperial".
Proof. repeat split. Qed.

(** Claim C2 (the api_key setter).  For a non-empty string the setter
    assigns [self.api_key], which re-enters the setter: whatever the stack
    budget, the call ends in [RecursionError] and the key is never stored. *)
Theorem api_key_setter_nonempty_recurses (depth : nat) (self : CityWeather)
    (s : string) (Hs : s <> "") :
  api_key_setter depth self (VStr s) = Exc RecursionError.
Proof.
  assert (Ht : truthy (VStr s) = true).
  { cbn. destruct (String.eqb_spec s "") as [E|E]; [contradiction | reflexivity]. }
  induction depth as [|d IH]; cbn -[truthy]; [reflexivity|].
  by rewrite Ht.
Qed.

Lemma api_key_setter_nonempty_recurses_witness :
  "0e0ab2271488dc844f64ead7184b53fc" <> "" /\
  api_key_setter 1000 CityWeather_default (VStr "0e0ab2271488dc844f64ead7184b53fc")
    = Exc RecursionError.
Proof.
  split; [discriminate|].
  apply (api_key_setter_nonempty_recurses 1000 CityWeather_default
           "0e0ab2271488dc844f64ead7184b53fc").
  discriminate.
Defined.

Lemma api_key_setter_falsy (depth : nat) (self : CityWeather) (val : pyval) :
  truthy val = false -> api_key_setter (S depth) self val = Exc WeatherException.
Proof. intros H; cbn -[truthy]; by rewrite H. Qed.

(** Claim C6, as the claim states it, fails: the empty string is a string,
    so the city_name setter accepts it. *)
Lemma city_name_setter_accepts_empty :
  city_name_setter CityWeather_default (VStr "")
    = Ok (set_city_name_field CityWeather_default (VStr "")).
Proof. reflexivity. Qed.

(** Claim C6 (amended).  The city_name setter rejects every non-string
    value with [WeatherException] and accepts every string, the empty
    string and multi-word names included, storing it unchanged. *)
Theorem city_name_setter_spec (self : CityWeather) (val : pyval) :
  match val with
  | VStr s => exists self', city_name_setter self val = Ok self' /\
                            cw_city_name self' = VStr s
  | _ => city_name_setter self val = Exc WeatherException
  end.
Proof. destruct val as [s| | |]; cbn; [by eexists | reflexivity..]. Qed.

(** ** The request URL *)

(** Claim C9.  With string city name and key, and units one of the three
    accepted values, the URL handed to [urlopen] is the base host followed
    by [/data/2.5/weather?q=<city>&appid=<key>&mode=xml&units=<token>],
    [<token>] being [""], ["metric"] or ["imperial"] for kelvin, celsius or
    fahrenheit.  ([self.mode] is set to ["xml"] by [__init__] and never
    changed.) *)
Theorem request_url_format (w : World) (self : CityWeather) (st : St)
    (c k u tok : string)
    (Hc : cw_city_name self = VStr c) (Hk : cw_api_key self = VStr k)
    (Hm : cw_mode self = "xml") (Hu : cw_units self = VStr u)
    (Ht : In (u, tok) [("kelvin", ""); ("celsius", "metric");
                       ("fahrenheit", "imperial")]) :
  http_log (snd (create_city_weather_data_file w self st))
  = (SERVER_NAME ++ "/data/2.5/weather?q=" ++ c ++ "&appid=" ++ k
       ++ "&mode=xml&units=" ++ tok) :: http_log st.
Proof.
  unfold create_city_weather_data_file.
  rewrite Hu, Hc, Hk, Hm.
  unfold bind, lift, log_request, try_except, write_city_file, print,
    set_scratch, ret, raise.
  destruct Ht as [E|[E|[E|[]]]]; injection E as <- <-; cbn;
    (destruct (w_urlopen w _) as [body|e]; cbn;
     [destruct (w_write w body) as [[e [p|]]|]; cbn;
      try destruct (is_WeatherException _)|]);
    rewrite ?string_app_assoc; reflexivity.
Qed.

Lemma request_url_format_witness :
  (cw_city_name tel_aviv_obj = VStr "tel aviv" /\
   cw_api_key tel_aviv_obj = VStr "KEY" /\
   cw_mode tel_aviv_obj = "xml" /\ cw_units tel_aviv_obj = VStr "celsius" /\
   In ("celsius", "metric") [("kelvin", ""); ("celsius", "metric");
                             ("fahrenheit", "imperial")]) /\
  http_log (snd (create_city_weather_data_file offline_world tel_aviv_obj empty_st))
  = [SERVER_NAME ++ "/data/2.5/weather?q=tel aviv&appid=KEY&mode=xml&units=metric"].
Proof.
  split; [repeat split; simpl; tauto|].
  apply (request_url_format offline_world tel_aviv_obj empty_st
           "tel aviv" "KEY" "celsius" "metric"); try reflexivity.
  simpl; tauto.
Defined.

(** ** Rendering *)

(** Claim C7.  For a stored record, the printed report is the fixed
    template in which every field appears as stored, except the wind and
    cloud descriptions, which appear as [str.lower] returns them. *)
Theorem report_rendering (w : World) (self : CityWeather) (st : St) (c : string)
    (r : report)
    (Hc : cw_city_name self = VStr c)
    (Hr : city_weather_dict st !! VStr c = Some r) :
  fst (print_city_weather_report w self st) = Ok tt /\
  stdout (snd (print_city_weather_report w self st))
  = app (stdout st)
      ["Weather report for " ++ c ++ ":" ++ nl ++
       "Temperature is at " ++ temperature_val r ++ " " ++ temp_unit r ++ nl ++
       "Humidity is " ++ humidity_val r ++ humidity_unit r ++ nl ++
       "Wind is at " ++ wind_val r ++ " speed meaning " ++ w_lower w (wind_desc r)
         ++ nl ++
       "Air pressure is " ++ pressure_val r ++ " " ++ pressure_unit r ++ nl ++
       "Clouds coverage is " ++ clouds_val r ++ "% meaning "
         ++ w_lower w (clouds_desc r) ++ nl].
Proof.
  unfold print_city_weather_report, dict_load, bind, lift, print, ret, raise.
  rewrite Hc, py_key_str, Hr.
  unfold report_format, nl; cbn.
  split; [reflexivity|].
  repeat rewrite ?string_app_assoc; reflexivity.
Qed.


Lemma report_rendering_witness :
  (cw_city_name tel_aviv_obj = VStr "tel aviv" /\
   city_weather_dict
     (mkSt {[VStr "tel aviv" := sample_report]} [] None []) !! VStr "tel aviv"
   = Some sample_report) /\
  stdout (snd (print_city_weather_report sample_world tel_aviv_obj
                 (mkSt {[VStr "tel aviv" := sample_report]} [] None [])))
  = ["Weather report for tel aviv:" ++ nl ++
     "Temperature is at 15 celsius" ++ nl ++
     "Humidity is 60%" ++ nl ++
     "Wind is at 3 speed meaning light breeze" ++ nl ++
     "Air pressure is 1012 hPa" ++ nl ++
     "Clouds coverage is 40% meaning scattered clouds" ++ nl].
Proof.
  split; [split; reflexivity|].
  destruct (report_rendering sample_world tel_aviv_obj
              (mkSt {[VStr "tel aviv" := sample_report]} [] None [])
              "tel aviv" sample_report eq_refl (lookup_singleton_eq _ _)) as [_ ->].
  reflexivity.
Defined.

(** ** The fetch-parse sequence *)

Ltac unfold_pipeline :=
  unfold update_city_weather_dict, create_city_weather_data_file,
    parse_city_file, write_city_file, dict_store, bind, lift, log_request,
    try_except, print, set_scratch, ret, raise.

(** Reduce the pipeline while keeping string comparisons and DOM queries
    folded, so that case analysis stays on the source's own tests. *)
Ltac cbn_pipe :=
  cbn -[String.eqb getElementsByTagName doc_getElementsByTagName
        getAttribute List.filter].

Lemma first_head {A} (l : list A) (x : A) : head l = Some x -> first l = Ok x.
Proof. destruct l; cbn; congruence. Qed.

Lemma first_exc {A} (l : list A) (e : exc) : first l = Exc e -> e = IndexError.
Proof. destruct l; cbn; congruence. Qed.

Lemma temp_metric :
  first (map fst (List.filter (fun kv => String.eqb kv.2 "metric")
                              unit_conversion_dict)) = Ok "celsius".
Proof. reflexivity. Qed.

(** Whatever the interpreter state, one call of [update_city_weather_dict]
    either raises the same exception, leaving [city_weather_dict] as it
    was, or stores the same record under [self.city_name]. *)
Lemma update_uniform (w : World) (self : CityWeather)
    (Hf : foreign_world w) :
  exists o : res report, forall st,
    match o with
    | Ok r => exists st', update_city_weather_dict w self st = (Ok tt, st') /\
        city_weather_dict st'
        = <[py_key (cw_city_name self) := r]> (city_weather_dict st)
    | Exc e => exists st', update_city_weather_dict w self st = (Exc e, st') /\
        city_weather_dict st' = city_weather_dict st
    end.
Proof.
  destruct Hf as (_ & Hw & _).
  unfold_pipeline; cbn_pipe.
  repeat (case_match; cbn_pipe);
  try match goal with
      | H : w_write _ _ = Some (?e, _), H' : is_WeatherException ?e = true |- _ =>
          destruct e; try discriminate; exfalso; eapply Hw; exact H
      end;
  first [ eexists (Exc _); intros st; cbn; eexists; split; reflexivity
        | eexists (Ok _); intros st; cbn; eexists; split; reflexivity ].
Qed.

(** Case on a list the code indexes with [[0]]; [H] tracks it. *)
Ltac split_list H l x :=
  let E := fresh "E" in
  destruct l as [|x ?] eqn:E;
  try rewrite E in H; cbn_pipe;
  cbn -[String.eqb getElementsByTagName doc_getElementsByTagName
        getAttribute List.filter] in H;
  try (split; reflexivity).

(** Claim C4.  When the fetched document lacks one of the expected
    elements, the sequence fails ([IndexError] from the [[0]] subscript,
    the parse failure this code produces) and [city_weather_dict] is left
    as it was. *)
Theorem missing_element_fails (w : World) (self : CityWeather) (st : St)
    (c k tok body : string) (doc : xnode)
    (Hc : cw_city_name self = VStr c) (Hk : cw_api_key self = VStr k)
    (Hu : dict_get unit_conversion_dict (cw_units self) = Ok tok)
    (Hnet : forall url, w_urlopen w url = Ok body)
    (Hw : w_write w body = None) (Hp : w_parse w body = Ok doc)
    (Hmiss : elements_present doc = false) :
  fst (update_city_weather_dict w self st) = Exc IndexError /\
  city_weather_dict (snd (update_city_weather_dict w self st))
  = city_weather_dict st.
Proof.
  unfold_pipeline.
  rewrite Hu, Hc, Hk; cbn_pipe.
  rewrite Hnet; cbn_pipe. rewrite Hw; cbn_pipe. rewrite Hp; cbn_pipe.
  unfold elements_present in Hmiss.
  split_list Hmiss (doc_getElementsByTagName "current" doc) cur.
  split_list Hmiss (getElementsByTagName "temperature" cur) t.
  destruct (String.eqb (getAttribute t "unit") "metric") eqn:Em;
    [apply String.eqb_eq in Em; rewrite Em, temp_metric|]; cbn_pipe;
  (split_list Hmiss (getElementsByTagName "humidity" cur) h;
   split_list Hmiss (getElementsByTagName "wind" cur) wi;
   split_list Hmiss (getElementsByTagName "speed" wi) sp;
   split_list Hmiss (getElementsByTagName "clouds" cur) cl;
   split_list Hmiss (getElementsByTagName "pressure" cur) pr; discriminate).
Qed.

Lemma missing_element_fails_witness :
  elements_present no_wind_doc = false /\
  fst (update_city_weather_dict no_wind_world tel_aviv_obj empty_st)
    = Exc IndexError /\
  city_weather_dict (snd (update_city_weather_dict no_wind_world tel_aviv_obj
                                                   empty_st))
    = city_weather_dict empty_st.
Proof.
  split; [reflexivity|].
  apply (missing_element_fails no_wind_world tel_aviv_obj empty_st
           "tel aviv" "KEY" "metric" "<current>...</current>" no_wind_doc);
    reflexivity.
Defined.

(** Claim C3, as the claim states it, fails: a network error is not
    caught.  Without network the exception reaches the caller and nothing
    is printed. *)
Lemma network_error_not_reported :
  fst (update_city_weather_dict offline_world tel_aviv_obj empty_st) = Exc URLError /\
  stdout (snd (update_city_weather_dict offline_world tel_aviv_obj empty_st)) = [].
Proof. split; reflexivity. Qed.

(** Claim C3 (amended).  A network error raised by the request is not
    caught in the fetch-parse sequence: the same exception reaches the
    caller, no message is printed, the sequence stops there and
    [city_weather_dict] is left unchanged. *)
Theorem network_error_propagates (w : World) (self : CityWeather) (st : St)
    (c k tok : string) (e : exc)
    (Hc : cw_city_name self = VStr c) (Hk : cw_api_key self = VStr k)
    (Hu : dict_get unit_conversion_dict (cw_units self) = Ok tok)
    (Hnet : forall url, w_urlopen w url = Exc e) :
  fst (update_city_weather_dict w self st) = Exc e /\
  stdout (snd (update_city_weather_dict w self st)) = stdout st /\
  city_weather_dict (snd (update_city_weather_dict w self st))
  = city_weather_dict st.
Proof.
  unfold_pipeline.
  rewrite Hu, Hc, Hk; cbn_pipe.
  rewrite Hnet; cbn_pipe.
  repeat split.
Qed.

Lemma network_error_propagates_witness :
  (cw_city_name tel_aviv_obj = VStr "tel aviv" /\
   cw_api_key tel_aviv_obj = VStr "KEY" /\
   dict_get unit_conversion_dict (cw_units tel_aviv_obj) = Ok "metric" /\
   (forall url, w_urlopen offline_world url = Exc URLError)) /\
  fst (update_city_weather_dict offline_world tel_aviv_obj empty_st) = Exc URLError.
Proof.
  split; [repeat split|].
  apply (network_error_propagates offline_world tel_aviv_obj empty_st
           "tel aviv" "KEY" "metric" URLError); reflexivity.
Defined.

(** Claim C5.  On a response with all expected elements, the stored record
    holds the attribute strings of the first matching elements unchanged,
    except the temperature unit, which is ["celsius"] when the provider's
    unit is ["metric"] and the provider's unit otherwise. *)
Theorem well_formed_report_fields (w : World) (self : CityWeather) (st : St)
    (c k tok body : string) (doc cur t hu wi sp pr cl : xnode)
    (Hc : cw_city_name self = VStr c) (Hk : cw_api_key self = VStr k)
    (Hu : dict_get unit_conversion_dict (cw_units self) = Ok tok)
    (Hnet : forall url, w_urlopen w url = Ok body)
    (Hw : w_write w body = None) (Hp : w_parse w body = Ok doc)
    (Hcur : head (doc_getElementsByTagName "current" doc) = Some cur)
    (Ht : head (getElementsByTagName "temperature" cur) = Some t)
    (Hh : head (getElementsByTagName "humidity" cur) = Some hu)
    (Hwi : head (getElementsByTagName "wind" cur) = Some wi)
    (Hsp : head (getElementsByTagName "speed" wi) = Some sp)
    (Hpr : head (getElementsByTagName "pressure" cur) = Some pr)
    (Hcl : head (getElementsByTagName "clouds" cur) = Some cl) :
  exists st',
    update_city_weather_dict w self st = (Ok tt, st') /\
    city_weather_dict st' !! VStr c = Some
      {| temperature_val := getAttribute t "value";
         temp_unit := if String.eqb (getAttribute t "unit") "metric"
                      then "celsius" else getAttribute t "unit";
         humidity_val := getAttribute hu "value";
         humidity_unit := getAttribute hu "unit";
         wind_val := getAttribute sp "value";
         wind_desc := getAttribute sp "name";
         pressure_val := getAttribute pr "value";
         pressure_unit := getAttribute pr "unit";
         clouds_val := getAttribute cl "value";
         clouds_desc := getAttribute cl "name" |}.
Proof.
  unfold_pipeline.
  rewrite Hu, Hc, Hk; cbn_pipe.
  rewrite Hnet; cbn_pipe. rewrite Hw; cbn_pipe. rewrite Hp; cbn_pipe.
  rewrite (first_head _ _ Hcur); cbn_pipe.
  rewrite !(first_head _ _ Ht); cbn_pipe.
  destruct (String.eqb (getAttribute t "unit") "metric") eqn:Em;
    [apply String.eqb_eq in Em; rewrite Em, temp_metric|]; cbn_pipe;
    rewrite !(first_head _ _ Hh); cbn_pipe;
    rewrite !(first_head _ _ Hwi); cbn_pipe;
    rewrite !(first_head _ _ Hsp); cbn_pipe;
    rewrite !(first_head _ _ Hcl); cbn_pipe;
    rewrite !(first_head _ _ Hpr); cbn_pipe;
    (eexists; split; [reflexivity | apply lookup_insert_eq]).
Qed.

Lemma well_formed_report_fields_witness :
  exists st',
    update_city_weather_dict sample_world tel_aviv_obj empty_st = (Ok tt, st') /\
    city_weather_dict st' !! VStr "tel aviv" = Some sample_report.
Proof.
  destruct (well_formed_report_fields sample_world tel_aviv_obj empty_st
              "tel aviv" "KEY" "metric" "<current>...</current>"
              sample_doc sample_doc
              (XElem "temperature" [("value", "15"); ("unit", "metric")] [])
              (XElem "humidity" [("value", "60"); ("unit", "%")] [])
              (XElem "wind" [] [XElem "speed" [("value", "3");
                                               ("name", "Light breeze")] []])
              (XElem "speed" [("value", "3"); ("name", "Light breeze")] [])
              (XElem "pressure" [("value", "1012"); ("unit", "hPa")] [])
              (XElem "clouds" [("value", "40"); ("name", "scattered clouds")] []))
    as [st' [E L]]; try reflexivity.
  exists st'; split; [exact E | exact L].
Defined.

(** Claim C8.  Two successful queries for the same city: afterwards the
    entry for the city is the record of the second query alone (the first
    leaves no trace in the mapping), and that record is the same whatever
    the state the second query starts from. *)
Theorem same_city_last_write_wins (w1 w2 : World) (self1 self2 : CityWeather)
    (c : string) (st st1 st2 : St)
    (Hf1 : foreign_world w1) (Hf2 : foreign_world w2)
    (Hc1 : cw_city_name self1 = VStr c) (Hc2 : cw_city_name self2 = VStr c)
    (H1 : update_city_weather_dict w1 self1 st = (Ok tt, st1))
    (H2 : update_city_weather_dict w2 self2 st1 = (Ok tt, st2)) :
  exists r,
    city_weather_dict st2 = <[VStr c := r]> (city_weather_dict st) /\
    forall st' st'', update_city_weather_dict w2 self2 st' = (Ok tt, st'') ->
      city_weather_dict st'' !! VStr c = Some r.
Proof.
  destruct (update_uniform w1 self1 Hf1) as [o1 U1].
  destruct (update_uniform w2 self2 Hf2) as [o2 U2].
  rewrite Hc1 in U1; rewrite Hc2 in U2; cbn in U1, U2.
  destruct o1 as [r1|e1];
    destruct (U1 st) as [s1' [E1' D1']]; rewrite H1 in E1'; try discriminate.
  injection E1' as <-.
  destruct o2 as [r2|e2];
    destruct (U2 st1) as [s2 [E2 D2]]; rewrite H2 in E2; try discriminate.
  injection E2 as <-.
  exists r2; split.
  - by rewrite D2, D1', insert_insert_eq.
  - intros st' st'' H.
    destruct (U2 st') as [s [E D]]; rewrite H in E.
    injection E as <-. by rewrite D, lookup_insert_eq.
Qed.

Lemma same_city_last_write_wins_witness :
  let st1 := snd (update_city_weather_dict sample_world tel_aviv_obj empty_st) in
  let st2 := snd (update_city_weather_dict later_world tel_aviv_obj st1) in
  (foreign_world sample_world /\ foreign_world later_world /\
   update_city_weather_dict sample_world tel_aviv_obj empty_st = (Ok tt, st1) /\
   update_city_weather_dict later_world tel_aviv_obj st1 = (Ok tt, st2)) /\
  exists r,
    city_weather_dict st2 = <[VStr "tel aviv" := r]> (city_weather_dict empty_st) /\
    forall st' st'', update_city_weather_dict later_world tel_aviv_obj st'
                     = (Ok tt, st'') ->
      city_weather_dict st'' !! VStr "tel aviv" = Some r.
Proof.
  cbv zeta.
  assert (Hf : forall d, foreign_world (mkWorld (fun _ => Ok "<current>...</current>")
                                                (fun _ => None) (fun _ => Ok d)
                                                ascii_lower_string exc_name))
    by (intros d; repeat split; intros; discriminate).
  split; [split; [apply Hf | split; [apply Hf | split; reflexivity]]|].
  apply (same_city_last_write_wins sample_world later_world tel_aviv_obj
           tel_aviv_obj "tel aviv" empty_st
           (snd (update_city_weather_dict sample_world tel_aviv_obj empty_st))
           (snd (update_city_weather_dict later_world tel_aviv_obj
                   (snd (update_city_weather_dict sample_world tel_aviv_obj
                           empty_st)))));
    try apply Hf; reflexivity.
Defined.

(** ** Entry points and the constructor *)

Lemma update_never_weather_exception (w : World) (Hf : foreign_world w)
    (self : CityWeather) :
  forall st, fst (update_city_weather_dict w self st) <> Exc WeatherException.
Proof.
  destruct Hf as (Hn & Hw & Hp).
  unfold_pipeline; cbn_pipe.
  repeat (case_match; cbn_pipe);
  try match goal with
      | H : w_write _ _ = Some (?e, _), H' : is_WeatherException ?e = true |- _ =>
          destruct e; try discriminate; exfalso; eapply Hw; exact H
      end;
  intros st; cbn; try discriminate;
    intros Heq; injection Heq as ->;
    first [ eapply Hn; eassumption | eapply Hp; eassumption
          | match goal with H : is_WeatherException _ = false |- _ =>
              discriminate H end
          | match goal with H : first _ = Exc WeatherException |- _ =>
              apply first_exc in H; discriminate H end
          | match goal with H : _ = Exc WeatherException |- _ =>
              revert H; unfold str_plus, dict_get;
              repeat case_match; discriminate end ].
Qed.

Lemma py_format_never_weather_exception (fmt : string) (args : list string) :
  py_format fmt args <> Exc WeatherException.
Proof.
  remember (String.length fmt) as n eqn:Hn.
  revert fmt args Hn; induction n as [n IH] using lt_wf_ind.
  intros [|ch fmt] args Hn; cbn; [destruct args; discriminate|].
  cbn in Hn.
  repeat case_match; subst; try discriminate; unfold res_map;
    case_match; try discriminate; intros [= ->];
    match goal with
    | E : py_format ?f ?a = Exc WeatherException |- _ =>
        refine (IH (String.length f) _ f a eq_refl E); cbn; lia
    end.
Qed.

Lemma print_report_never_weather_exception (w : World) (self : CityWeather) :
  forall st, fst (print_city_weather_report w self st) <> Exc WeatherException.
Proof.
  intros st.
  unfold print_city_weather_report, dict_load, bind, lift, print, ret, raise.
  destruct (city_weather_dict st !! py_key (cw_city_name self)); cbn;
    [|discriminate].
  destruct (py_format _ _) eqn:E; cbn; [discriminate|].
  intros [= ->]. exact (py_format_never_weather_exception _ _ E).
Qed.

(** Claim C10.  [CityWeather.__init__] validates nothing: for every
    combination of arguments (a non-string city name, an unknown unit, a
    missing or empty key) it builds an object holding them unchanged.
    Neither [run] nor [main] calls a setter: [WeatherException], which
    only the setters raise, never comes out of either entry point, [main]
    whatever the outcome of [parser.parse_args()]. *)
Theorem constructor_never_validates (w : World) (Hf : foreign_world w) :
  (forall city_name units api_key : pyval,
     cw_city_name (CityWeather_init city_name units api_key) = city_name /\
     cw_units (CityWeather_init city_name units api_key) = units /\
     cw_api_key (CityWeather_init city_name units api_key) = api_key) /\
  (forall (city_name units api_key : pyval) (st : St),
     fst (run w city_name units api_key st) <> Exc WeatherException) /\
  (forall (args : option (string * string * string)) (st : St),
     fst (main w args st) <> Exc WeatherException).
Proof.
  split; [intros; repeat split|split].
  - intros c u k st. unfold run, bind.
    pose proof (update_never_weather_exception w Hf
                  (CityWeather_init c u k) st) as U.
    destruct (update_city_weather_dict w _ st) as [[[]|e] s]; cbn in *;
      [apply print_report_never_weather_exception | exact U].
  - intros args st. unfold main, bind, raise.
    destruct args as [[[c u] k]|]; cbn; [|discriminate].
    pose proof (update_never_weather_exception w Hf
                  (CityWeather_init (VStr c) (VStr u) (VStr k)) st) as U.
    destruct (update_city_weather_dict w _ st) as [[[]|e] s]; cbn in *;
      [apply print_report_never_weather_exception | exact U].
Qed.

Lemma constructor_never_validates_witness :
  foreign_world offline_world /\
  cw_units (CityWeather_init (VInt 42) (VStr "rankine") VNone) = VStr "rankine" /\
  fst (run offline_world (VInt 42) (VStr "rankine") VNone empty_st)
    <> Exc WeatherException.
Proof.
  assert (Hf : foreign_world offline_world)
    by (repeat split; intros; discriminate).
  split; [exact Hf|].
  destruct (constructor_never_validates offline_world Hf) as (Hi & Hr & _).
  split; [apply Hi | apply Hr].
Defined.

(* ================================================================== *)
(** * Further properties of the module *)

(** ** Failures before the request *)

(** [unit_conversion_dict[self.units]] is the first step of the fetch: a
    units value that is not one of its keys raises [KeyError] before any
    request, and the interpreter state is left exactly as it was. *)
Theorem unknown_units_key_error (w : World) (self : CityWeather) (st : St)
    (Hu : match cw_units self with
          | VStr s => s <> "fahrenheit" /\ s <> "celsius" /\ s <> "kelvin"
          | _ => True
          end) :
  update_city_weather_dict w self st = (Exc KeyError, st).
Proof.
  assert (E : dict_get unit_conversion_dict (cw_units self) = Exc KeyError).
  { unfold dict_get; destruct (cw_units self) as [s| | |]; try reflexivity.
    destruct Hu as (H1 & H2 & H3); cbn [unit_conversion_dict find fst].
    destruct (String.eqb_spec "fahrenheit" s); [congruence|].
    destruct (String.eqb_spec "celsius" s); [congruence|].
    destruct (String.eqb_spec "kelvin" s); [congruence|].
    reflexivity. }
  unfold_pipeline; rewrite E; reflexivity.
Qed.

Lemma unknown_units_key_error_witness :
  update_city_weather_dict sample_world
    (CityWeather_init (VStr "tel aviv") (VStr "rankine") (VStr "KEY")) empty_st
  = (Exc KeyError, empty_st).
Proof.
  apply unknown_units_key_error; cbn; repeat split; discriminate.
Defined.

(** The URL is built with [+]: when the city name or the API key is not a
    string (the constructor's default [api_key=None] included), the
    concatenation raises [TypeError] before any request and the
    interpreter state is left exactly as it was. *)
Theorem non_string_url_part_type_error (w : World) (self : CityWeather)
    (st : St) (tok : string)
    (Hu : dict_get unit_conversion_dict (cw_units self) = Ok tok)
    (Hs : is_str (cw_city_name self) = false \/ is_str (cw_api_key self) = false) :
  update_city_weather_dict w self st = (Exc TypeError, st).
Proof.
  unfold_pipeline; rewrite Hu; cbn_pipe.
  destruct Hs as [Hs|Hs].
  - destruct (cw_city_name self); try discriminate; reflexivity.
  - destruct (cw_city_name self); try reflexivity.
    destruct (cw_api_key self); try discriminate; reflexivity.
Qed.

Lemma non_string_url_part_type_error_witness :
  update_city_weather_dict sample_world CityWeather_default empty_st
  = (Exc TypeError, empty_st).
Proof.
  apply (non_string_url_part_type_error _ _ _ "metric"); [reflexivity|].
  right; reflexivity.
Defined.

(** ** The scratch file *)

(** When the request succeeds and the write does not fail, the fetch step
    leaves the response body, unchanged, as the contents of
    [CITY_FILE_NAME]; it prints nothing and does not touch
    [city_weather_dict]. *)
Theorem fetch_stores_response_body (w : World) (self : CityWeather) (st : St)
    (c k tok body : string)
    (Hc : cw_city_name self = VStr c) (Hk : cw_api_key self = VStr k)
    (Hu : dict_get unit_conversion_dict (cw_units self) = Ok tok)
    (Hnet : forall url, w_urlopen w url = Ok body)
    (Hw : w_write w body = None) :
  fst (create_city_weather_data_file w self st) = Ok tt /\
  scratch (snd (create_city_weather_data_file w self st)) = Some body /\
  stdout (snd (create_city_weather_data_file w self st)) = stdout st /\
  city_weather_dict (snd (create_city_weather_data_file w self st))
  = city_weather_dict st.
Proof.
  unfold create_city_weather_data_file, write_city_file, bind, lift,
    log_request, try_except, print, set_scratch, ret, raise.
  rewrite Hu, Hc, Hk; cbn_pipe.
  rewrite Hnet; cbn_pipe. rewrite Hw; cbn_pipe.
  repeat split.
Qed.

Lemma fetch_stores_response_body_witness :
  scratch (snd (create_city_weather_data_file sample_world tel_aviv_obj empty_st))
  = Some "<current>...</current>".
Proof.
  apply (fetch_stores_response_body sample_world tel_aviv_obj empty_st
           "tel aviv" "KEY" "metric"); reflexivity.
Defined.

(** ** Rendering a city that has no report *)

(** [print_city_weather_report] reads [city_weather_dict[city_name]]
    while building its argument tuple: for a city with no entry (for
    instance before any successful update) it raises [KeyError], prints
    nothing and leaves the state as it was. *)
Theorem print_report_missing_city (w : World) (self : CityWeather) (st : St)
    (Hn : city_weather_dict st !! py_key (cw_city_name self) = None) :
  print_city_weather_report w self st = (Exc KeyError, st).
Proof.
  unfold print_city_weather_report, dict_load, bind.
  rewrite Hn; reflexivity.
Qed.

Lemma print_report_missing_city_witness :
  print_city_weather_report sample_world tel_aviv_obj empty_st
  = (Exc KeyError, empty_st).
Proof. apply print_report_missing_city; reflexivity. Defined.

(** ** The command line *)


(** ** Failures after the request *)

(** A failing write of the scratch file ([OSError] and the like, never
    [WeatherException], the only class the handler catches) propagates out
    of [update_city_weather_dict] unchanged: nothing is printed and
    [city_weather_dict] is left as it was.  The file keeps its previous
    contents only when [open] itself failed; once opened it was truncated,
    and holds what the failed write left in it. *)
Theorem write_error_propagates (w : World) (self : CityWeather) (st : St)
    (c k tok body : string) (e : exc) (left : option string)
    (Hc : cw_city_name self = VStr c) (Hk : cw_api_key self = VStr k)
    (Hu : dict_get unit_conversion_dict (cw_units self) = Ok tok)
    (Hnet : forall url, w_urlopen w url = Ok body)
    (Hw : w_write w body = Some (e, left)) (He : e <> WeatherException) :
  fst (update_city_weather_dict w self st) = Exc e /\
  city_weather_dict (snd (update_city_weather_dict w self st))
  = city_weather_dict st /\
  stdout (snd (update_city_weather_dict w self st)) = stdout st /\
  scratch (snd (update_city_weather_dict w self st))
  = match left with None => scratch st | Some partial => Some partial end.
Proof.
  unfold_pipeline.
  rewrite Hu, Hc, Hk; cbn_pipe.
  rewrite Hnet; cbn_pipe. rewrite Hw; cbn_pipe.
  destruct left; destruct e; try (exfalso; congruence); cbn; repeat split.
Qed.

Lemma write_error_propagates_witness :
  let st0 := mkSt ∅ [] (Some "<current>old</current>") [] in
  fst (update_city_weather_dict disk_full_world tel_aviv_obj st0)
  = Exc OSError /\
  city_weather_dict (snd (update_city_weather_dict disk_full_world tel_aviv_obj
                                                   st0))
  = city_weather_dict st0 /\
  stdout (snd (update_city_weather_dict disk_full_world tel_aviv_obj st0))
  = stdout st0 /\
  scratch (snd (update_city_weather_dict disk_full_world tel_aviv_obj st0))
  = Some "".
Proof.
  cbv zeta.
  apply (write_error_propagates disk_full_world tel_aviv_obj
           (mkSt ∅ [] (Some "<current>old</current>") [])
           "tel aviv" "KEY" "metric" "<current>...</current>" OSError (Some ""));
    try reflexivity; discriminate.
Defined.

(** A response that [minidom] cannot parse ([ExpatError], not caught by
    the [WeatherException] handler) makes [update_city_weather_dict] raise
    that error: the response has already been written to the scratch file,
    nothing is printed and [city_weather_dict] is left as it was. *)
Theorem parse_error_propagates (w : World) (self : CityWeather) (st : St)
    (c k tok body : string) (e : exc)
    (Hc : cw_city_name self = VStr c) (Hk : cw_api_key self = VStr k)
    (Hu : dict_get unit_conversion_dict (cw_units self) = Ok tok)
    (Hnet : forall url, w_urlopen w url = Ok body)
    (Hw : w_write w body = None)
    (Hp : w_parse w body = Exc e) (He : e <> WeatherException) :
  fst (update_city_weather_dict w self st) = Exc e /\
  city_weather_dict (snd (update_city_weather_dict w self st))
  = city_weather_dict st /\
  stdout (snd (update_city_weather_dict w self st)) = stdout st /\
  scratch (snd (update_city_weather_dict w self st)) = Some body.
Proof.
  unfold_pipeline.
  rewrite Hu, Hc, Hk; cbn_pipe.
  rewrite Hnet; cbn_pipe. rewrite Hw; cbn_pipe. rewrite Hp; cbn_pipe.
  destruct e; try (exfalso; congruence); cbn; repeat split.
Qed.

Lemma parse_error_propagates_witness :
  fst (update_city_weather_dict bad_xml_world tel_aviv_obj empty_st)
  = Exc ExpatError /\
  city_weather_dict (snd (update_city_weather_dict bad_xml_world tel_aviv_obj
                                                   empty_st))
  = city_weather_dict empty_st /\
  stdout (snd (update_city_weather_dict bad_xml_world tel_aviv_obj empty_st))
  = stdout empty_st /\
  scratch (snd (update_city_weather_dict bad_xml_world tel_aviv_obj empty_st))
  = Some "<current".
Proof.
  apply (parse_error_propagates bad_xml_world tel_aviv_obj empty_st
           "tel aviv" "KEY" "metric" "<current");
    try reflexivity; discriminate.
Defined.

(** ** Frame properties of one update *)

(** [update_city_weather_dict] assigns only [city_weather_dict[self.city_name]]:
    the entry of every other key is the same after the call, whether it
    succeeds or raises. *)
Theorem update_preserves_other_cities (w : World) (self : CityWeather)
    (Hf : foreign_world w) (st : St) (key : pyval)
    (Hk : key <> py_key (cw_city_name self)) :
  city_weather_dict (snd (update_city_weather_dict w self st)) !! key
  = city_weather_dict st !! key.
Proof.
  destruct (update_uniform w self Hf) as [[r|e] Ho];
    destruct (Ho st) as (st' & E & D); rewrite E; cbn; rewrite D;
    [apply lookup_insert_ne; congruence | reflexivity].
Qed.

Lemma update_preserves_other_cities_witness :
  (foreign_world sample_world /\ VStr "paris" <> py_key (cw_city_name tel_aviv_obj)) /\
  city_weather_dict (snd (update_city_weather_dict sample_world tel_aviv_obj
                            (mkSt {[VStr "paris" := sample_report]} [] None [])))
    !! VStr "paris"
  = Some sample_report.
Proof.
  assert (Hf : foreign_world sample_world)
    by (repeat split; intros; discriminate).
  split; [split; [exact Hf | discriminate]|].
  rewrite (update_preserves_other_cities sample_world tel_aviv_obj Hf
             (mkSt {[VStr "paris" := sample_report]} [] None []) (VStr "paris"));
    [reflexivity | discriminate].
Defined.

(** When the libraries never raise [WeatherException], neither [print] of
    [update_city_weather_dict] (its two handlers) ever runs: the call
    writes nothing to standard output, whatever the response. *)
Theorem update_prints_nothing (w : World) (self : CityWeather)
    (Hf : foreign_world w) :
  forall st, stdout (snd (update_city_weather_dict w self st)) = stdout st.
Proof.
  destruct Hf as (Hn & Hw & Hp).
  unfold_pipeline; cbn_pipe.
  repeat (case_match; cbn_pipe);
  try match goal with
      | H : w_write _ _ = Some (?e, _), H' : is_WeatherException ?e = true |- _ =>
          destruct e; try discriminate; exfalso; eapply Hw; exact H
      | H : w_parse _ _ = Exc ?e, H' : is_WeatherException ?e = true |- _ =>
          destruct e; try discriminate; exfalso; eapply Hp; exact H
      end;
  intros st; cbn; reflexivity.
Qed.

Lemma update_prints_nothing_witness :
  foreign_world no_wind_world /\
  stdout (snd (update_city_weather_dict no_wind_world tel_aviv_obj
                 (mkSt ∅ ["earlier"] None [])))
  = ["earlier"].
Proof.
  assert (Hf : foreign_world no_wind_world)
    by (repeat split; intros; discriminate).
  split; [exact Hf|].
  exact (update_prints_nothing no_wind_world tel_aviv_obj Hf
           (mkSt ∅ ["earlier"] None [])).
Defined.

(** One update issues at most one request: [http_log] either is as it
    was (the call failed before [urlopen]) or has gained one URL, and a
    successful call has always made exactly one request. *)
Theorem update_single_request (w : World) (self : CityWeather)
    (Hf : foreign_world w) :
  forall st,
    match fst (update_city_weather_dict w self st) with
    | Ok _ => exists url,
        http_log (snd (update_city_weather_dict w self st)) = url :: http_log st
    | Exc _ =>
        http_log (snd (update_city_weather_dict w self st)) = http_log st \/
        exists url,
          http_log (snd (update_city_weather_dict w self st)) = url :: http_log st
    end.
Proof.
  destruct Hf as (Hn & Hw & Hp).
  unfold_pipeline; cbn_pipe.
  repeat (case_match; cbn_pipe);
  try match goal with
      | H : w_write _ _ = Some (?e, _), H' : is_WeatherException ?e = true |- _ =>
          destruct e; try discriminate; exfalso; eapply Hw; exact H
      | H : w_parse _ _ = Exc ?e, H' : is_WeatherException ?e = true |- _ =>
          destruct e; try discriminate; exfalso; eapply Hp; exact H
      end;
  intros st; cbn;
  first [ eexists; reflexivity | left; reflexivity | right; eexists; reflexivity ].
Qed.

Lemma update_single_request_witness :
  foreign_world offline_world /\
  http_log (snd (update_city_weather_dict offline_world tel_aviv_obj empty_st))
  = [SERVER_NAME ++ "/data/2.5/weather?q=tel aviv&appid=KEY&mode=xml&units=metric"] /\
  match fst (update_city_weather_dict offline_world tel_aviv_obj empty_st) with
  | Ok _ => exists url,
      http_log (snd (update_city_weather_dict offline_world tel_aviv_obj empty_st))
      = url :: http_log empty_st
  | Exc _ =>
      http_log (snd (update_city_weather_dict offline_world tel_aviv_obj empty_st))
      = http_log empty_st \/
      exists url,
        http_log (snd (update_city_weather_dict offline_world tel_aviv_obj empty_st))
        = url :: http_log empty_st
  end.
Proof.
  assert (Hf : foreign_world offline_world)
    by (repeat split; intros; discriminate).
  split; [exact Hf|]. split; [reflexivity|].
  exact (update_single_request offline_world tel_aviv_obj Hf empty_st).
Defined.

(** ** Successful updates *)

Lemma has_some_first {A} (l : list A) :
  has_some l = true -> exists x, first l = Ok x.
Proof. destruct l; cbn; [discriminate | eauto]. Qed.

(** When the request, the write and the parse succeed and the document
    has every element the code indexes, the update stores a record under
    the city name, prints nothing and raises nothing. *)
Lemma update_complete_doc (w : World) (self : CityWeather) (st : St)
    (c k tok body : string) (doc : xnode)
    (Hc : cw_city_name self = VStr c) (Hk : cw_api_key self = VStr k)
    (Hu : dict_get unit_conversion_dict (cw_units self) = Ok tok)
    (Hnet : forall url, w_urlopen w url = Ok body)
    (Hw : w_write w body = None) (Hp : w_parse w body = Ok doc)
    (Hpres : elements_present doc = true) :
  exists r st', update_city_weather_dict w self st = (Ok tt, st') /\
    city_weather_dict st' = <[VStr c := r]> (city_weather_dict st) /\
    stdout st' = stdout st.
Proof.
  unfold_pipeline.
  rewrite Hu, Hc, Hk; cbn_pipe.
  rewrite Hnet; cbn_pipe. rewrite Hw; cbn_pipe. rewrite Hp; cbn_pipe.
  unfold elements_present in Hpres.
  destruct (doc_getElementsByTagName "current" doc) as [|cur ?] eqn:Ec;
    rewrite ?Ec in Hpres; [discriminate|].
  cbn_pipe. cbn [forallb] in Hpres.
  repeat match goal with H : _ && _ = true |- _ => apply andb_prop in H as [? ?] end.
  match goal with
  | H : match getElementsByTagName "wind" cur with _ => _ end = true |- _ =>
      destruct (getElementsByTagName "wind" cur) as [|w0 ?] eqn:Ewi;
      [discriminate H|]
  end.
  cbn_pipe.
  repeat match goal with
  | H : has_some ?l = true |- _ =>
      let E := fresh "E" in
      destruct (has_some_first l H) as [? E]; clear H; rewrite ?E; cbn_pipe
  end.
  destruct (String.eqb _ "metric") eqn:Em;
    [apply String.eqb_eq in Em; rewrite Em, temp_metric|]; cbn_pipe;
    do 2 eexists; (split; [reflexivity|]); split; reflexivity.
Qed.

(** A document with every element the code indexes is always accepted: the
    update returns normally and [city_weather_dict[city_name]] then holds a
    record. *)
Theorem complete_document_accepted (w : World) (self : CityWeather) (st : St)
    (c k tok body : string) (doc : xnode)
    (Hc : cw_city_name self = VStr c) (Hk : cw_api_key self = VStr k)
    (Hu : dict_get unit_conversion_dict (cw_units self) = Ok tok)
    (Hnet : forall url, w_urlopen w url = Ok body)
    (Hw : w_write w body = None) (Hp : w_parse w body = Ok doc)
    (Hpres : elements_present doc = true) :
  fst (update_city_weather_dict w self st) = Ok tt /\
  exists r, city_weather_dict (snd (update_city_weather_dict w self st))
              !! VStr c = Some r.
Proof.
  destruct (update_complete_doc w self st c k tok body doc Hc Hk Hu Hnet Hw Hp
              Hpres) as (r & st' & E & D & _).
  rewrite E; cbn; split; [reflexivity|].
  exists r; rewrite D; apply lookup_insert_eq.
Qed.

Lemma complete_document_accepted_witness :
  elements_present sample_doc = true /\
  fst (update_city_weather_dict sample_world tel_aviv_obj empty_st) = Ok tt /\
  exists r, city_weather_dict (snd (update_city_weather_dict sample_world
                                      tel_aviv_obj empty_st))
              !! VStr "tel aviv" = Some r.
Proof.
  split; [reflexivity|].
  apply (complete_document_accepted sample_world tel_aviv_obj empty_st
           "tel aviv" "KEY" "metric" "<current>...</current>" sample_doc);
    reflexivity.
Defined.

(** [run] on a city whose response is complete returns normally and prints
    exactly one message: the report of the record the update has just
    stored under the city name.  The update itself prints nothing and the
    rendering of the stored record cannot fail. *)
Theorem run_prints_one_report (w : World) (st : St)
    (c u k tok body : string) (doc : xnode)
    (Hu : dict_get unit_conversion_dict (VStr u) = Ok tok)
    (Hnet : forall url, w_urlopen w url = Ok body)
    (Hw : w_write w body = None) (Hp : w_parse w body = Ok doc)
    (Hpres : elements_present doc = true) :
  fst (run w (VStr c) (VStr u) (VStr k) st) = Ok tt /\
  exists r,
    city_weather_dict (snd (run w (VStr c) (VStr u) (VStr k) st)) !! VStr c
    = Some r /\
    stdout (snd (run w (VStr c) (VStr u) (VStr k) st))
    = app (stdout st)
      ["Weather report for " ++ c ++ ":" ++ nl ++
       "Temperature is at " ++ temperature_val r ++ " " ++ temp_unit r ++ nl ++
       "Humidity is " ++ humidity_val r ++ humidity_unit r ++ nl ++
       "Wind is at " ++ wind_val r ++ " speed meaning " ++ w_lower w (wind_desc r)
         ++ nl ++
       "Air pressure is " ++ pressure_val r ++ " " ++ pressure_unit r ++ nl ++
       "Clouds coverage is " ++ clouds_val r ++ "% meaning "
         ++ w_lower w (clouds_desc r) ++ nl].
Proof.
  destruct (update_complete_doc w (CityWeather_init (VStr c) (VStr u) (VStr k))
              st c k tok body doc eq_refl eq_refl Hu Hnet Hw Hp Hpres)
    as (r & st' & E & D & O).
  destruct st' as [d0 o0 s0 h0]; cbn in D, O; subst d0 o0.
  assert (R : run w (VStr c) (VStr u) (VStr k) st
              = (Ok tt, mkSt (<[VStr c := r]> (city_weather_dict st))
                             (app (stdout st) ["Weather report for " ++ c ++ ":" ++ nl ++
               "Temperature is at " ++ temperature_val r ++ " " ++ temp_unit r ++ nl ++
               "Humidity is " ++ humidity_val r ++ humidity_unit r ++ nl ++
               "Wind is at " ++ wind_val r ++ " speed meaning " ++ w_lower w (wind_desc r)
                 ++ nl ++
               "Air pressure is " ++ pressure_val r ++ " " ++ pressure_unit r ++ nl ++
               "Clouds coverage is " ++ clouds_val r ++ "% meaning "
                 ++ w_lower w (clouds_desc r) ++ nl])
                             s0 h0)).
  { unfold run, bind; cbv beta; rewrite E.
    unfold print_city_weather_report, dict_load, bind, lift, print, ret, raise.
    cbn [cw_city_name CityWeather_init py_key city_weather_dict stdout];
    rewrite lookup_insert_eq.
    unfold report_format, nl; cbn.
    repeat rewrite ?string_app_assoc; reflexivity. }
  rewrite R; cbn [fst snd stdout city_weather_dict].
  split; [reflexivity|]. exists r; split; [apply lookup_insert_eq | reflexivity].
Qed.

Lemma run_prints_one_report_witness :
  fst (run sample_world (VStr "tel aviv") (VStr "celsius") (VStr "KEY") empty_st)
  = Ok tt /\
  exists r,
    city_weather_dict (snd (run sample_world (VStr "tel aviv") (VStr "celsius")
                              (VStr "KEY") empty_st)) !! VStr "tel aviv"
    = Some r /\
    stdout (snd (run sample_world (VStr "tel aviv") (VStr "celsius")
                   (VStr "KEY") empty_st))
    = app (stdout empty_st)
      ["Weather report for " ++ "tel aviv" ++ ":" ++ nl ++
       "Temperature is at " ++ temperature_val r ++ " " ++ temp_unit r ++ nl ++
       "Humidity is " ++ humidity_val r ++ humidity_unit r ++ nl ++
       "Wind is at " ++ wind_val r ++ " speed meaning "
         ++ w_lower sample_world (wind_desc r) ++ nl ++
       "Air pressure is " ++ pressure_val r ++ " " ++ pressure_unit r ++ nl ++
       "Clouds coverage is " ++ clouds_val r ++ "% meaning "
         ++ w_lower sample_world (clouds_desc r) ++ nl].
Proof.
  apply (run_prints_one_report sample_world empty_st "tel aviv" "celsius" "KEY"
           "metric" "<current>...</current>" sample_doc); reflexivity.
Defined.

(** [print_city_weather_report] only reads: whether it prints or raises,
    [city_weather_dict], the scratch file and the request log are left as
    they were. *)
Theorem print_report_read_only (w : World) (self : CityWeather) (st : St) :
  city_weather_dict (snd (print_city_weather_report w self st))
  = city_weather_dict st /\
  scratch (snd (print_city_weather_report w self st)) = scratch st /\
  http_log (snd (print_city_weather_report w self st)) = http_log st.
Proof.
  unfold print_city_weather_report, dict_load, bind, lift, print, ret, raise.
  destruct (city_weather_dict st !! py_key (cw_city_name self)); cbn;
    [destruct (py_format _ _); cbn|]; repeat split.
Qed.
